(** * huskyCI: the container lifecycle controller and the RetireJS evaluator

    A shallow embedding of [api/container/container.go] (the controller,
    the image pull worker and the command resolver) and of
    [analysis/retirejs.go] (the RetireJS result evaluator), with the
    properties stated by their specification. *)

From Stdlib Require Import String Ascii List Bool Arith NArith Lia.
Import ListNotations.
Open Scope string_scope.


(** ** Go's [strings] package on byte strings

    A Go [string] is a byte sequence; here it is a Rocq [string], a list of
    8-bit [ascii] characters. *)
Module GoStrings.

(** [HasPrefix s p]. *)
Fixpoint HasPrefix (s p : string) : bool :=
  match p, s with
  | EmptyString, _ => true
  | String c p', String d s' => Ascii.eqb c d && HasPrefix s' p'
  | String _ _, EmptyString => false
  end.

(** [strings.Contains(s, substr)]: [Index(s, substr) >= 0]; the empty
    [substr] is contained in every string. *)
Fixpoint Contains (s substr : string) : bool :=
  HasPrefix s substr ||
  match s with
  | EmptyString => false
  | String _ s' => Contains s' substr
  end.

(** [strings.Replace(s, old, new, -1)] for a non-empty [old] (every call
    site of this repository passes a non-empty constant): scanning left to
    right, each leftmost non-overlapping occurrence of [old] is replaced by
    [new]; the text between occurrences is copied.  [skip] counts the bytes
    of an occurrence already replaced that are still to be dropped. *)
Fixpoint replace_from (old new : string) (skip : nat) (s : string) : string :=
  match s with
  | EmptyString => EmptyString
  | String c s' =>
      match skip with
      | S k => replace_from old new k s'
      | O => if HasPrefix s old
             then new ++ replace_from old new (pred (String.length old)) s'
             else String c (replace_from old new O s')
      end
  end.

Definition ReplaceAll (s old new : string) : string :=
  replace_from old new O s.

End GoStrings.

Import GoStrings.

(** ** The command template resolver ([container.go], [HandleCmd] and
    [HandlePrivateSSHKey]) *)

(** The process environment: [os.Getenv] returns [""] for an unset
    variable. *)
Definition env := string -> option string.

Definition Getenv (e : env) (key : string) : string :=
  match e key with Some v => v | None => "" end.

(** [HandleCmd(repositoryURL, repositoryBranch, cmd)]. *)
Definition HandleCmd (repositoryURL repositoryBranch cmd : string) : string :=
  if negb (String.eqb repositoryURL "") && negb (String.eqb repositoryBranch "")
     && negb (String.eqb cmd "")
  then
    let replace1 := ReplaceAll cmd "%GIT_REPO%" repositoryURL in
    let replace2 := ReplaceAll replace1 "%GIT_BRANCH%" repositoryBranch in
    replace2
  else "".

(** [HandlePrivateSSHKey(rawString)]. *)
Definition HandlePrivateSSHKey (e : env) (rawString : string) : string :=
  let privKey := Getenv e "HUSKYCI_API_GIT_PRIVATE_SSH_KEY" in
  let cmdReplaced := ReplaceAll rawString "GIT_PRIVATE_SSH_KEY" privKey in
  cmdReplaced.


(** ** The Docker client environment ([container.go], [setDockerClientEnvs],
    [NewDockerClient] and [HealthCheckDockerAPI]) *)
Module DockerEnv.

(** Does [s] hold the byte [b]. *)
Fixpoint has_byte (b : ascii) (s : string) : bool :=
  match s with
  | EmptyString => false
  | String c s' => Ascii.eqb c b || has_byte b s'
  end.

(** [os.Setenv(key, value)] on Unix: [syscall.Setenv] refuses an empty key,
    a key holding ['='] or a NUL byte and a value holding a NUL byte with
    [EINVAL], which [os.Setenv] wraps as [setenv: invalid argument];
    otherwise the variable is set. *)
Definition Setenv (e : env) (key value : string) : option string * env :=
  if String.eqb key "" || has_byte "=" key || has_byte zero key || has_byte zero value
  then (Some "setenv: invalid argument", e)
  else (None, fun k => if String.eqb k key then Some value else e k).

(** [setDockerClientEnvs()]: the error, the environment afterwards and the
    codes of the [log.Error] lines. *)
Definition setDockerClientEnvs (e : env) : option string * env * list nat :=
  let dockerAPIAddress := Getenv e "HUSKYCI_DOCKERAPI_ADDR" in
  let dockerAPIPort0 := Getenv e "HUSKYCI_DOCKERAPI_PORT" in
  let dockerAPIPort := if String.eqb dockerAPIPort0 "" then "2376" else dockerAPIPort0 in
  let dockerHost := "https://" ++ dockerAPIAddress ++ ":" ++ dockerAPIPort in
  let pathCertificate := Getenv e "HUSKYCI_DOCKERAPI_CERT_PATH" in
  let tlsVerify0 := Getenv e "HUSKYCI_DOCKERAPI_TLS_VERIFY" in
  let tlsVerify := if String.eqb tlsVerify0 "" then "1" else tlsVerify0 in
  match Setenv e "DOCKER_HOST" dockerHost with
  | (Some err, e1) => (Some err, e1, [3001])
  | (None, e1) =>
      match Setenv e1 "DOCKER_CERT_PATH" pathCertificate with
      | (Some err, e2) => (Some err, e2, [3019])
      | (None, e2) =>
          match Setenv e2 "DOCKER_TLS_VERIFY" tlsVerify with
          | (Some err, e3) => (Some err, e3, [3020])
          | (None, e3) => (None, e3, [])
          end
      end
  end.

Section Client.

(** [client.NewEnvClient()], which configures the client from the
    environment, and the client's [Ping]: their errors. *)
Variable NewEnvClient : env -> option string.
Variable Ping : env -> option string.

(** [NewDockerClient()] as far as the environment goes: the error, the
    environment afterwards and the logged codes. *)
Definition NewDockerClient (e : env) : option string * env * list nat :=
  match setDockerClientEnvs e with
  | (Some err, e1, logs) => (Some err, e1, logs)
  | (None, e1, logs) => (NewEnvClient e1, e1, logs)
  end.

(** [HealthCheckDockerAPI()] on a zero [Container]. *)
Definition HealthCheckDockerAPI (e : env) : option string * list nat :=
  match NewDockerClient e with
  | (Some err, _, logs) => (Some err, (logs ++ [3011])%list)
  | (None, e1, logs) => (Ping e1, logs)
  end.

End Client.

End DockerEnv.


(** ** The container lifecycle controller ([container.go]) *)
Module Controller.

(** [Image]. *)
Record Image := mkImage {
  CanonicalURL : string;
  Name : string;
  Tag : string
}.

(** A [time.Time] is a count of milliseconds; [0] is the zero value. *)
Definition Time := N.

(** [Container]; [dockerClient] records whether a client is set. *)
Record Container := mkContainer {
  dockerClient : bool;
  CID : string;
  Status : string;
  Command : string;
  Output : string;
  Img : Image;
  StartedAt : Time;
  FinishedAt : Time
}.

(** [container.Config] as [Create] fills it. *)
Record Config := mkConfig {
  cfg_Image : string;
  cfg_Tty : bool;
  cfg_Cmd : list string
}.

(** What a call to [ContainerWait] returns: the exit status, the error and
    how long the call blocked. *)
Record WaitResult := mkWaitResult {
  w_status : nat;
  w_err : option string;
  w_elapsed : N
}.

(** The observable actions of the controller, each stamped with the clock
    when it happens: calls to the Docker daemon and log lines. *)
Inductive Event :=
  | ENewClient
  | EImageList (reference : string)
  | EImagePull (canonicalURL : string)
  | ECreate (cfg : Config)
  | EStart (cid : string)
  | EWait (cid : string)
  | ELogs (cid : string)
  | ERemove (cid : string)
  | ELog (level : string) (code : nat).

Record St := mkSt {
  cont : Container;
  clock : Time;
  trace : list (Time * Event)
}.

(** The state monad threading the container, the clock and the trace; Go
    errors are returned as [option string] values, as in the source. *)
Definition M (A : Type) := St -> A * St.

Definition ret {A} (a : A) : M A := fun s => (a, s).
Definition bind {A B} (m : M A) (k : A -> M B) : M B :=
  fun s => let '(a, s') := m s in k a s'.

Notation "x <- m ;; k" := (bind m (fun x => k))
  (at level 61, m at next level, right associativity).
Notation "m ;;; k" := (bind m (fun _ => k))
  (at level 61, right associativity).

Definition emit (e : Event) : M unit :=
  fun s => (tt, mkSt (cont s) (clock s) (trace s ++ [(clock s, e)])).
Definition now : M Time := fun s => (clock s, s).
Definition set_clock (t : Time) : M unit :=
  fun s => (tt, mkSt (cont s) t (trace s)).
Definition get_c : M Container := fun s => (cont s, s).
Definition put_c (c : Container) : M unit :=
  fun s => (tt, mkSt c (clock s) (trace s)).

Definition log_error (code : nat) : M unit := emit (ELog "ERROR" code).
Definition log_info (code : nat) : M unit := emit (ELog "INFO" code).

Definition set_dockerClient (c : Container) : Container :=
  mkContainer true (CID c) (Status c) (Command c) (Output c) (Img c)
    (StartedAt c) (FinishedAt c).
Definition set_CID (id : string) (c : Container) : Container :=
  mkContainer (dockerClient c) id (Status c) (Command c) (Output c) (Img c)
    (StartedAt c) (FinishedAt c).
Definition set_Status (st : string) (c : Container) : Container :=
  mkContainer (dockerClient c) (CID c) st (Command c) (Output c) (Img c)
    (StartedAt c) (FinishedAt c).
Definition set_Output (o : string) (c : Container) : Container :=
  mkContainer (dockerClient c) (CID c) (Status c) (Command c) o (Img c)
    (StartedAt c) (FinishedAt c).
Definition set_StartedAt (t : Time) (c : Container) : Container :=
  mkContainer (dockerClient c) (CID c) (Status c) (Command c) (Output c)
    (Img c) t (FinishedAt c).
Definition set_FinishedAt (t : Time) (c : Container) : Container :=
  mkContainer (dockerClient c) (CID c) (Status c) (Command c) (Output c)
    (Img c) (StartedAt c) t.

Definition modify_c (f : Container -> Container) : M unit :=
  c <- get_c ;; put_c (f c).

(** [fmt.Sprintf("%s:%s", c.Image.Name, c.Image.Tag)]. *)
Definition fullImageName (c : Container) : string :=
  Name (Img c) ++ ":" ++ Tag (Img c).

(** [15 * time.Second] and [15 * time.Minute] in milliseconds. *)
Definition retryInterval : N := 15000.
Definition pullTimeout : N := 900000.

Definition is_removal (ev : Time * Event) : bool :=
  match snd ev with ERemove _ => true | _ => false end.
Definition removals (tr : list (Time * Event)) : nat :=
  List.length (filter is_removal tr).


Section Docker.

(** The process environment read by [HandlePrivateSSHKey]. *)
Variable e : env.

(** The Docker daemon's answers, as functions of the time of the call and
    its arguments.  [d_new_client] is the outcome of [setDockerClientEnvs]
    followed by [client.NewEnvClient]; [d_image_list] gives the length of
    the image list for a [reference] filter; [d_logs] gives the bytes of
    [ContainerLogs] read to the end, or the error of either call. *)
Variable d_new_client : option string.
Variable d_image_list : Time -> string -> nat * option string.
Variable d_image_pull : Time -> string -> option string.
Variable d_create : Time -> Config -> string * option string.
Variable d_start : Time -> string -> option string.
Variable d_wait : Time -> string -> WaitResult.
Variable d_logs : Time -> string -> bool -> bool -> string * option string.
Variable d_remove : Time -> string -> option string.

(** When the timeout and a tick of [PullImageWorker]'s [select] are ready
    at the same instant, Go picks one of them at random; [sel k] is that
    choice at the [k]-th tick ([true]: the tick). *)
Variable sel : nat -> bool.

(** [NewDockerClient]. *)
Definition NewDockerClient : M (option string) :=
  emit ENewClient ;;;
  match d_new_client with
  | Some err => ret (Some err)
  | None => modify_c set_dockerClient ;;; ret None
  end.

(** [ImageIsLoaded]: is the image list filtered by [name:tag] non-empty. *)
Definition ImageIsLoaded : M (bool * option string) :=
  c <- get_c ;;
  t <- now ;;
  emit (EImageList (fullImageName c)) ;;;
  let '(n, err) := d_image_list t (fullImageName c) in
  match err with
  | Some er => ret (false, Some er)
  | None => ret (negb (Nat.eqb n 0), None)
  end.

(** [PullImage]. *)
Definition PullImage : M (option string) :=
  c <- get_c ;;
  t <- now ;;
  emit (EImagePull (CanonicalURL (Img c))) ;;;
  ret (d_image_pull t (CanonicalURL (Img c))).

(** [Create]. *)
Definition Create (repositoryURL branch : string) : M (option string) :=
  c <- get_c ;;
  let cmd := HandleCmd repositoryURL branch (Command c) in
  let finalCMD := HandlePrivateSSHKey e cmd in
  let containerConfig := mkConfig (fullImageName c) true ["/bin/sh"; "-c"; finalCMD] in
  t <- now ;;
  emit (ECreate containerConfig) ;;;
  let '(id, err) := d_create t containerConfig in
  match err with
  | Some er => ret (Some er)
  | None => modify_c (set_CID id) ;;; ret None
  end.

(** [Start]. *)
Definition Start : M (option string) :=
  c <- get_c ;;
  t <- now ;;
  emit (EStart (CID c)) ;;;
  ret (d_start t (CID c)).

(** [Wait]: blocks while the container runs; a non-zero exit status is
    only logged. *)
Definition Wait : M (option string) :=
  c <- get_c ;;
  t <- now ;;
  emit (EWait (CID c)) ;;;
  let r := d_wait t (CID c) in
  set_clock (t + w_elapsed r)%N ;;;
  (if Nat.eqb (w_status r) 0 then ret tt else log_error 3028) ;;;
  ret (w_err r).

(** [Remove]. *)
Definition Remove : M (option string) :=
  c <- get_c ;;
  t <- now ;;
  emit (ERemove (CID c)) ;;;
  ret (d_remove t (CID c)).

(** [ReadOutput(isSTDOUT, isSTDERR)]. *)
Definition ReadOutput (isSTDOUT isSTDERR : bool) : M (option string) :=
  c <- get_c ;;
  t <- now ;;
  emit (ELogs (CID c)) ;;;
  let '(body, err) := d_logs t (CID c) isSTDOUT isSTDERR in
  match err with
  | Some er => ret (Some er)
  | None => modify_c (set_Output body) ;;; ret None
  end.

(** The [for { select { ... } }] loop of [PullImageWorker].  The timer of
    [time.After] and the ticker start at [t0]; the loop body takes no time,
    so the [k]-th tick arrives at [t0 + k * 15s] and no tick is dropped.
    Iteration [k] takes the tick when it comes before the deadline (or at
    the deadline when [select] picks it), the timeout otherwise.  By the
    61st tick the deadline has passed, so [fuel = 61] is never exhausted. *)
Fixpoint pull_loop (fuel : nat) (t0 : Time) (k : nat) : M (option string) :=
  match fuel with
  | O => ret (Some "timeout")
  | S f =>
      let tick := (t0 + N.of_nat k * retryInterval)%N in
      let deadline := (t0 + pullTimeout)%N in
      if N.ltb tick deadline || (N.eqb tick deadline && sel k) then
        set_clock tick ;;;
        log_info 31 ;;;
        r <- ImageIsLoaded ;;
        let '(isLoaded, err) := r in
        match err with
        | Some er => log_error 3029 ;;; ret (Some er)
        | None =>
            if isLoaded then log_info 35 ;;; ret None
            else
              perr <- PullImage ;;
              match perr with
              | Some er => log_error 3013 ;;; ret (Some er)
              | None => pull_loop f t0 (S k)
              end
        end
      else
        set_clock deadline ;;;
        log_error 3013 ;;;
        ret (Some "timeout")
  end.

(** [PullImageWorker]. *)
Definition PullImageWorker : M (option string) :=
  t0 <- now ;;
  pull_loop 61 t0 1.

(** [Run(repositoryURL, branch)]. *)
Definition Run (repositoryURL branch : string) : M (option string) :=
  err1 <- NewDockerClient ;;
  match err1 with
  | Some er => log_error 3005 ;;; ret (Some er)
  | None =>
  r <- ImageIsLoaded ;;
  let '(imageIsLoaded, err2) := r in
  match err2 with
  | Some er => ret (Some er)
  | None =>
  err3 <- (if imageIsLoaded then ret None else PullImageWorker) ;;
  match err3 with
  | Some er => ret (Some er)
  | None =>
  err4 <- Create repositoryURL branch ;;
  match err4 with
  | Some er => log_error 3014 ;;; ret (Some er)
  | None =>
  modify_c (set_Status "created") ;;;
  t <- now ;;
  modify_c (set_StartedAt t) ;;;
  err5 <- Start ;;
  match err5 with
  | Some er => modify_c (set_Status "finished") ;;; log_error 3015 ;;; ret (Some er)
  | None =>
  log_info 32 ;;;
  modify_c (set_Status "running") ;;;
  err6 <- Wait ;;
  match err6 with
  | Some er => modify_c (set_Status "finished") ;;; log_error 3016 ;;; ret (Some er)
  | None =>
  t' <- now ;;
  modify_c (set_FinishedAt t') ;;;
  err7 <- ReadOutput true false ;;
  match err7 with
  | Some er => log_error 3007 ;;; ret (Some er)
  | None =>
  log_info 34 ;;;
  modify_c (set_Status "finished") ;;;
  err8 <- Remove ;;
  (match err8 with Some _ => log_error 3027 | None => ret tt end) ;;;
  ret None
  end end end end end end end.

End Docker.

(** A computation that adds no removal call to the trace. *)
Definition keeps_removals {A} (m : M A) : Prop :=
  forall s, removals (trace (snd (m s))) = removals (trace s).



End Controller.

(** ** The RetireJS result evaluator ([analysis/retirejs.go]) *)
Module Retirejs.

(** [RetirejsIdentifier]. *)
Record RetirejsIdentifier := mkIdentifier {
  IssueFound : string;
  Summary : string;
  CVE : list string
}.

(** [RetirejsVulnerability]. *)
Record RetirejsVulnerability := mkVulnerability {
  Info : list string;
  Below : string;
  Severity : string;
  RetirejsIdentifiers : RetirejsIdentifier
}.

(** [RetirejsResult]. *)
Record RetirejsResult := mkResult {
  Version : string;
  Component : string;
  Detection : string;
  RetirejsVulnerabilities : list RetirejsVulnerability
}.

(** [RetirejsIssue]. *)
Record RetirejsIssue := mkIssue {
  File : string;
  RetirejsResults : list RetirejsResult
}.

(** [RetirejsOutput]; a [json.RawMessage] holds the raw bytes of a JSON
    value. *)
Record RetirejsOutput := mkOutput {
  RetirejsIssues : list RetirejsIssue;
  Messages : string;
  Errors : string
}.

(** What the evaluator does, in order: calls of the persistence gateway
    [UpdateOneDBAnalysisContainer] with the container's [CID] (the query
    [{"containers.CID": CID}]) and the fields of the [$set] document, the
    call of [json.Unmarshal], and log lines. *)
Inductive AEvent :=
  | AUpdate (cid : string) (set : list (string * string))
  | AUnmarshal (raw : string)
  | ALog (level : string) (msg : string).

Definition key_cOutput : string := "containers.$.cOutput".
Definition key_cResult : string := "containers.$.cResult".

(** The innermost [for] of step 2: [break] leaves it at the first
    vulnerability of severity ["high"] or ["medium"]. *)
Fixpoint vulnerability_loop (vs : list RetirejsVulnerability) (cResult : string) : string :=
  match vs with
  | [] => cResult
  | v :: vs' =>
      if String.eqb (Severity v) "high" || String.eqb (Severity v) "medium"
      then "failed"
      else vulnerability_loop vs' cResult
  end.

Fixpoint result_loop (rs : list RetirejsResult) (cResult : string) : string :=
  match rs with
  | [] => cResult
  | r :: rs' => result_loop rs' (vulnerability_loop (RetirejsVulnerabilities r) cResult)
  end.

Fixpoint issue_loop (is : list RetirejsIssue) (cResult : string) : string :=
  match is with
  | [] => cResult
  | i :: is' => issue_loop is' (result_loop (RetirejsResults i) cResult)
  end.

(** Every vulnerability of every result of every issue, in order. *)
Definition vulnerabilities (o : RetirejsOutput) : list RetirejsVulnerability :=
  flat_map (fun i => flat_map RetirejsVulnerabilities (RetirejsResults i))
    (RetirejsIssues o).

(** The condition of the innermost [if] of step 2. *)
Definition is_failing (v : RetirejsVulnerability) : bool :=
  String.eqb (Severity v) "high" || String.eqb (Severity v) "medium".

Section Evaluator.

(** [json.Unmarshal] into a zero [RetirejsOutput] ([None]: it returned an
    error), and the error returned by the persistence gateway for an update
    of the container [CID]. *)
Variable Unmarshal : string -> option RetirejsOutput.
Variable UpdateOneDBAnalysisContainer : string -> list (string * string) -> option string.

Definition update_error_msg : string :=
  "Error updating AnalysisCollection (inside retirejs.go):".

(** One gateway call and the log line on its failure. *)
Definition update (CID : string) (set : list (string * string)) : list AEvent :=
  AUpdate CID set ::
  match UpdateOneDBAnalysisContainer CID set with
  | Some _ => [ALog "ERROR" update_error_msg]
  | None => []
  end.

(** [RetirejsStartAnalysis(CID, cOutput)]. *)
Definition RetirejsStartAnalysis (CID cOutput : string) : list AEvent :=
  if Contains cOutput "ERROR_CLONING" then
    let errorOutput := "Container error: " ++ cOutput in
    update CID [(key_cOutput, errorOutput); (key_cResult, "failed")]
  else
    AUnmarshal cOutput ::
    match Unmarshal cOutput with
    | None =>
        [ALog "ERROR" "Unmarshall error (inside retirejs.go):"; ALog "ERROR" cOutput]
    | Some retirejsOutput =>
        if Nat.eqb (List.length (RetirejsIssues retirejsOutput)) 0 then
          update CID [(key_cOutput, "No issues found.")]
        else
          let cResult := issue_loop (RetirejsIssues retirejsOutput) "passed" in
          update CID [(key_cResult, cResult)]
    end.

End Evaluator.

(** The value the record of a run holds for [key] after the events: the
    last update that sets it. *)
Fixpoint persisted (key : string) (evs : list AEvent) : option string :=
  match evs with
  | [] => None
  | AUpdate _ set :: evs' =>
      match persisted key evs' with
      | Some v => Some v
      | None =>
          match find (fun kv => String.eqb (fst kv) key) set with
          | Some kv => Some (snd kv)
          | None => None
          end
      end
  | _ :: evs' => persisted key evs'
  end.

End Retirejs.

(** ** [json.Unmarshal] into [RetirejsOutput]

    Go's [encoding/json] as the evaluator uses it: the input is first
    checked to be one JSON value (surrounded by white space), then decoded
    into the zero [RetirejsOutput].  A key is matched to a field by the
    field's JSON name, ignoring ASCII case (and with U+017F and U+212A
    folding to [s] and [k]); unknown keys are skipped; [null] leaves a
    string or struct as it is and sets a slice to nil; a value of the wrong
    kind makes [Unmarshal] return an error.  A slice is decoded element by
    element into the existing elements, extended with zero values and cut
    to the array's length.  Strings are unquoted as Go does: escapes,
    [\uXXXX] with surrogate pairs, invalid UTF-8 and lone surrogates turned
    into U+FFFD.  The nesting-depth limit of Go's scanner is not modelled.
    Each parsing function takes a fuel no smaller than the input's length,
    and each step consumes a byte, so the fuel never runs out. *)
Module GoJSON.

Import Retirejs.

#[local] Set Warnings "-register-all".

Inductive json :=
  | JNull
  | JBool (b : bool)
  | JNumber (lit : string)
  | JString (v : string)
  | JArray (elems : list json)
  | JObject (members : list (string * json * string)).
(** An object member keeps its key, its value and the raw text of the
    value (what a [json.RawMessage] receives). *)

Definition byteN (c : ascii) : N := N_of_ascii c.

Definition is_ws (c : ascii) : bool :=
  let b := byteN c in (b =? 32)%N || (b =? 9)%N || (b =? 10)%N || (b =? 13)%N.

Fixpoint skip_ws (s : string) : string :=
  match s with
  | String c r => if is_ws c then skip_ws r else s
  | EmptyString => s
  end.

Definition in_range (lo hi : N) (c : ascii) : bool :=
  (lo <=? byteN c)%N && (byteN c <=? hi)%N.

Definition is_digit : ascii -> bool := in_range 48 57.

Definition hex_val (c : ascii) : option N :=
  if in_range 48 57 c then Some (byteN c - 48)%N
  else if in_range 97 102 c then Some (byteN c - 87)%N
  else if in_range 65 70 c then Some (byteN c - 55)%N
  else None.

(** [getu4]: four hex digits. *)
Definition hex4 (s : string) : option (N * string) :=
  match s with
  | String a (String b (String c (String d r))) =>
      match hex_val a, hex_val b, hex_val c, hex_val d with
      | Some x1, Some x2, Some x3, Some x4 =>
          Some ((((x1 * 16 + x2) * 16 + x3) * 16 + x4)%N, r)
      | _, _, _, _ => None
      end
  | _ => None
  end.

Definition byte_str (b : N) : string := String (ascii_of_N b) EmptyString.

(** [utf8.EncodeRune]. *)
Definition utf8_encode (r : N) : string :=
  if (r <? 128)%N then byte_str r
  else if (r <? 2048)%N then
    byte_str (192 + r / 64) ++ byte_str (128 + r mod 64)
  else if (r <? 65536)%N then
    byte_str (224 + r / 4096) ++ byte_str (128 + (r / 64) mod 64)
    ++ byte_str (128 + r mod 64)
  else
    byte_str (240 + r / 262144) ++ byte_str (128 + (r / 4096) mod 64)
    ++ byte_str (128 + (r / 64) mod 64) ++ byte_str (128 + r mod 64).

Definition replacement_char : string := utf8_encode 65533.

(** The width of the rune [utf8.DecodeRune] reads at the start of [s]
    (whose first byte is at least 0x80), or 0 when it is invalid. *)
Definition utf8_width (s : string) : nat :=
  let cont := in_range 128 191 in
  match s with
  | String b1 (String b2 r2) =>
      if in_range 194 223 b1 && cont b2 then 2
      else
        let ok2 :=
          if (byteN b1 =? 224)%N then in_range 160 191 b2
          else if (byteN b1 =? 237)%N then in_range 128 159 b2
          else if in_range 225 239 b1 then cont b2
          else false in
        let ok2' :=
          if (byteN b1 =? 240)%N then in_range 144 191 b2
          else if (byteN b1 =? 244)%N then in_range 128 143 b2
          else if in_range 241 243 b1 then cont b2
          else false in
        match r2 with
        | String b3 r3 =>
            if ok2 && cont b3 then 3
            else
              match r3 with
              | String b4 _ => if ok2' && cont b3 && cont b4 then 4 else 0
              | EmptyString => 0
              end
        | EmptyString => 0
        end
  | _ => 0
  end.

Definition simple_escape (c : ascii) : option ascii :=
  match byteN c with
  | 34%N => Some c | 92%N => Some c | 47%N => Some c
  | 98%N => Some (ascii_of_N 8) | 102%N => Some (ascii_of_N 12)
  | 110%N => Some (ascii_of_N 10) | 114%N => Some (ascii_of_N 13)
  | 116%N => Some (ascii_of_N 9)
  | _ => None
  end.

Definition prepend (p : string) (r : option (string * string)) : option (string * string) :=
  match r with Some (v, rest) => Some (p ++ v, rest) | None => None end.

Definition is_high_surrogate (r : N) : bool := (55296 <=? r)%N && (r <? 56320)%N.
Definition is_low_surrogate (r : N) : bool := (56320 <=? r)%N && (r <? 57344)%N.

(** A string literal after its opening quote: its unquoted bytes and the
    rest of the input after the closing quote. *)
Fixpoint parse_str (fuel : nat) (s : string) : option (string * string) :=
  match fuel with
  | O => None
  | S f =>
  match s with
  | EmptyString => None
  | String c r =>
      let b := byteN c in
      if (b =? 34)%N then Some (EmptyString, r)
      else if (b =? 92)%N then
        match r with
        | EmptyString => None
        | String esc r' =>
            match simple_escape esc with
            | Some d => prepend (String d EmptyString) (parse_str f r')
            | None =>
                if (byteN esc =? 117)%N then
                  match hex4 r' with
                  | None => None
                  | Some (cp, r2) =>
                      if is_high_surrogate cp || is_low_surrogate cp then
                        match r2 with
                        | String b1 (String b2 r3) =>
                            if (byteN b1 =? 92)%N && (byteN b2 =? 117)%N then
                              match hex4 r3 with
                              | Some (cp2, r4) =>
                                  if is_high_surrogate cp && is_low_surrogate cp2 then
                                    prepend (utf8_encode (65536 + (cp - 55296) * 1024 + (cp2 - 56320)))
                                      (parse_str f r4)
                                  else prepend replacement_char (parse_str f r2)
                              | None => prepend replacement_char (parse_str f r2)
                              end
                            else prepend replacement_char (parse_str f r2)
                        | _ => prepend replacement_char (parse_str f r2)
                        end
                      else prepend (utf8_encode cp) (parse_str f r2)
                  end
                else None
            end
        end
      else if (b <? 32)%N then None
      else if (b <? 128)%N then prepend (String c EmptyString) (parse_str f r)
      else
        match utf8_width s with
        | O => prepend replacement_char (parse_str f r)
        | w => prepend (substring 0 w s) (parse_str f (substring w (String.length s - w) s))
        end
  end
  end.

(** A maximal run of digits. *)
Fixpoint digits (s : string) : string * string :=
  match s with
  | String c r =>
      if is_digit c then let '(d, rest) := digits r in (String c d, rest)
      else (EmptyString, s)
  | EmptyString => (EmptyString, EmptyString)
  end.

(** One or more digits. *)
Definition digits1 (s : string) : option (string * string) :=
  match digits s with
  | (EmptyString, _) => None
  | p => Some p
  end.

Definition starts_with (c : N) (s : string) : bool :=
  match s with String d _ => (byteN d =? c)%N | EmptyString => false end.

Definition tail (s : string) : string :=
  match s with String _ r => r | EmptyString => EmptyString end.

(** A number: [-?(0|[1-9][0-9]* )(.[0-9]+)?([eE][+-]?[0-9]+)?]. *)
Definition parse_number (s : string) : option (string * string) :=
  let '(sign, s1) := if starts_with 45 s then ("-", tail s) else ("", s) in
  let int :=
    match s1 with
    | String c r =>
        if (byteN c =? 48)%N then Some ("0", r)
        else if in_range 49 57 c then let '(d, r') := digits r in Some (String c d, r')
        else None
    | EmptyString => None
    end in
  match int with
  | None => None
  | Some (i, s2) =>
      let frac :=
        if starts_with 46 s2 then
          match digits1 (tail s2) with
          | Some (d, r) => Some ("." ++ d, r)
          | None => None
          end
        else Some ("", s2) in
      match frac with
      | None => None
      | Some (fr, s3) =>
          let exp :=
            if starts_with 101 s3 || starts_with 69 s3 then
              let e := substring 0 1 s3 in
              let s4 := tail s3 in
              let '(sg, s5) :=
                if starts_with 43 s4 || starts_with 45 s4
                then (substring 0 1 s4, tail s4) else ("", s4) in
              match digits1 s5 with
              | Some (d, r) => Some (e ++ sg ++ d, r)
              | None => None
              end
            else Some ("", s3) in
          match exp with
          | None => None
          | Some (ex, s6) => Some (sign ++ i ++ fr ++ ex, s6)
          end
      end
  end.

(** The text consumed between [s] and its suffix [rest]. *)
Definition consumed (s rest : string) : string :=
  substring 0 (String.length s - String.length rest) s.

(** A value (no leading white space), an object's members after [{] and
    an array's elements after [[]. *)
Fixpoint parse_value (fuel : nat) (s : string) : option (json * string) :=
  match fuel with
  | O => None
  | S f =>
  match s with
  | String c r =>
      let b := byteN c in
      if (b =? 123)%N then
        let r' := skip_ws r in
        if starts_with 125 r' then Some (JObject [], tail r')
        else parse_members f r' []
      else if (b =? 91)%N then
        let r' := skip_ws r in
        if starts_with 93 r' then Some (JArray [], tail r')
        else parse_elems f r' []
      else if (b =? 34)%N then
        match parse_str f r with
        | Some (v, rest) => Some (JString v, rest)
        | None => None
        end
      else if HasPrefix s "true" then Some (JBool true, substring 4 (String.length s - 4) s)
      else if HasPrefix s "false" then Some (JBool false, substring 5 (String.length s - 5) s)
      else if HasPrefix s "null" then Some (JNull, substring 4 (String.length s - 4) s)
      else
        match parse_number s with
        | Some (lit, rest) => Some (JNumber lit, rest)
        | None => None
        end
  | EmptyString => None
  end
  end
with parse_members (fuel : nat) (s : string) (acc : list (string * json * string))
  : option (json * string) :=
  match fuel with
  | O => None
  | S f =>
      if starts_with 34 s then
        match parse_str f (tail s) with
        | None => None
        | Some (key, r1) =>
            let r2 := skip_ws r1 in
            if starts_with 58 r2 then
              let r3 := skip_ws (tail r2) in
              match parse_value f r3 with
              | None => None
              | Some (v, r4) =>
                  let acc' := (acc ++ [(key, v, consumed r3 r4)])%list in
                  let r5 := skip_ws r4 in
                  if starts_with 44 r5 then parse_members f (skip_ws (tail r5)) acc'
                  else if starts_with 125 r5 then Some (JObject acc', tail r5)
                  else None
              end
            else None
        end
      else None
  end
with parse_elems (fuel : nat) (s : string) (acc : list json) : option (json * string) :=
  match fuel with
  | O => None
  | S f =>
      match parse_value f s with
      | None => None
      | Some (v, r1) =>
          let acc' := (acc ++ [v])%list in
          let r2 := skip_ws r1 in
          if starts_with 44 r2 then parse_elems f (skip_ws (tail r2)) acc'
          else if starts_with 93 r2 then Some (JArray acc', tail r2)
          else None
      end
  end.

(** [checkValid] and the parse: exactly one value, with white space
    around it. *)
Definition parse_json (s : string) : option json :=
  let s' := skip_ws s in
  match parse_value (S (String.length s')) s' with
  | Some (v, rest) => if String.eqb (skip_ws rest) "" then Some v else None
  | None => None
  end.

(** Field names: the ASCII letters match either case; [s] also matches
    U+017F and [k] U+212A (Go's [equalFoldRight]). *)
Definition lower (c : ascii) : ascii :=
  if in_range 65 90 c then ascii_of_N (byteN c + 32) else c.

Fixpoint fold_eq (name key : string) : bool :=
  match name with
  | EmptyString => match key with EmptyString => true | _ => false end
  | String c n' =>
      match key with
      | EmptyString => false
      | String k k' =>
          if Ascii.eqb (lower k) (lower c) then fold_eq n' k'
          else if Ascii.eqb (lower c) "s" && (byteN k =? 197)%N then
            match k' with
            | String k2 k'' => (byteN k2 =? 191)%N && fold_eq n' k''
            | EmptyString => false
            end
          else if Ascii.eqb (lower c) "k" && (byteN k =? 226)%N then
            match k' with
            | String k2 (String k3 k'') =>
                (byteN k2 =? 132)%N && (byteN k3 =? 170)%N && fold_eq n' k''
            | _ => false
            end
          else false
      end
  end.

Definition dec_string (cur : string) (j : json) : option string :=
  match j with
  | JString v => Some v
  | JNull => Some cur
  | _ => None
  end.

Fixpoint dec_elems {A} (dec : A -> json -> option A) (zero : A) (cur : list A)
  (l : list json) : option (list A) :=
  match l with
  | [] => Some []
  | j :: l' =>
      match dec (hd zero cur) j, dec_elems dec zero (tl cur) l' with
      | Some x, Some xs => Some (x :: xs)
      | _, _ => None
      end
  end.

Definition dec_slice {A} (dec : A -> json -> option A) (zero : A) (cur : list A)
  (j : json) : option (list A) :=
  match j with
  | JNull => Some []
  | JArray l => dec_elems dec zero cur l
  | _ => None
  end.

Fixpoint dec_members {A} (set_field : A -> string -> json -> string -> option A)
  (cur : A) (ms : list (string * json * string)) : option A :=
  match ms with
  | [] => Some cur
  | (k, v, raw) :: ms' =>
      match set_field cur k v raw with
      | Some x => dec_members set_field x ms'
      | None => None
      end
  end.

Definition dec_struct {A} (set_field : A -> string -> json -> string -> option A)
  (cur : A) (j : json) : option A :=
  match j with
  | JNull => Some cur
  | JObject ms => dec_members set_field cur ms
  | _ => None
  end.

Definition zero_Identifier : RetirejsIdentifier := mkIdentifier "" "" [].
Definition zero_Vulnerability : RetirejsVulnerability := mkVulnerability [] "" "" zero_Identifier.
Definition zero_Result : RetirejsResult := mkResult "" "" "" [].
Definition zero_Issue : RetirejsIssue := mkIssue "" [].
Definition zero_Output : RetirejsOutput := mkOutput [] "" "".

Definition set_Identifier (x : RetirejsIdentifier) (k : string) (v : json) (_ : string)
  : option RetirejsIdentifier :=
  if fold_eq "issue" k then
    option_map (fun s => mkIdentifier s (Summary x) (CVE x)) (dec_string (IssueFound x) v)
  else if fold_eq "summary" k then
    option_map (fun s => mkIdentifier (IssueFound x) s (CVE x)) (dec_string (Summary x) v)
  else if fold_eq "CVE" k then
    option_map (fun l => mkIdentifier (IssueFound x) (Summary x) l)
      (dec_slice dec_string "" (CVE x) v)
  else Some x.

Definition dec_Identifier := dec_struct set_Identifier.

Definition set_Vulnerability (x : RetirejsVulnerability) (k : string) (v : json) (_ : string)
  : option RetirejsVulnerability :=
  if fold_eq "info" k then
    option_map (fun l => mkVulnerability l (Below x) (Severity x) (RetirejsIdentifiers x))
      (dec_slice dec_string "" (Info x) v)
  else if fold_eq "below" k then
    option_map (fun s => mkVulnerability (Info x) s (Severity x) (RetirejsIdentifiers x))
      (dec_string (Below x) v)
  else if fold_eq "severity" k then
    option_map (fun s => mkVulnerability (Info x) (Below x) s (RetirejsIdentifiers x))
      (dec_string (Severity x) v)
  else if fold_eq "identifiers" k then
    option_map (fun i => mkVulnerability (Info x) (Below x) (Severity x) i)
      (dec_Identifier (RetirejsIdentifiers x) v)
  else Some x.

Definition dec_Vulnerability := dec_struct set_Vulnerability.

Definition set_Result (x : RetirejsResult) (k : string) (v : json) (_ : string)
  : option RetirejsResult :=
  if fold_eq "version" k then
    option_map (fun s => mkResult s (Component x) (Detection x) (RetirejsVulnerabilities x))
      (dec_string (Version x) v)
  else if fold_eq "component" k then
    option_map (fun s => mkResult (Version x) s (Detection x) (RetirejsVulnerabilities x))
      (dec_string (Component x) v)
  else if fold_eq "detection" k then
    option_map (fun s => mkResult (Version x) (Component x) s (RetirejsVulnerabilities x))
      (dec_string (Detection x) v)
  else if fold_eq "vulnerabilities" k then
    option_map (fun l => mkResult (Version x) (Component x) (Detection x) l)
      (dec_slice dec_Vulnerability zero_Vulnerability (RetirejsVulnerabilities x) v)
  else Some x.

Definition dec_Result := dec_struct set_Result.

Definition set_Issue (x : RetirejsIssue) (k : string) (v : json) (_ : string)
  : option RetirejsIssue :=
  if fold_eq "file" k then
    option_map (fun s => mkIssue s (RetirejsResults x)) (dec_string (File x) v)
  else if fold_eq "results" k then
    option_map (fun l => mkIssue (File x) l)
      (dec_slice dec_Result zero_Result (RetirejsResults x) v)
  else Some x.

Definition dec_Issue := dec_struct set_Issue.

Definition set_Output (x : RetirejsOutput) (k : string) (v : json) (raw : string)
  : option RetirejsOutput :=
  if fold_eq "data" k then
    option_map (fun l => mkOutput l (Messages x) (Errors x))
      (dec_slice dec_Issue zero_Issue (RetirejsIssues x) v)
  else if fold_eq "messages" k then Some (mkOutput (RetirejsIssues x) raw (Errors x))
  else if fold_eq "errors" k then Some (mkOutput (RetirejsIssues x) (Messages x) raw)
  else Some x.

Definition dec_Output := dec_struct set_Output.

(** [json.Unmarshal([]byte(cOutput), &retirejsOutput)] with a zero
    [retirejsOutput]; [None] when it returns an error. *)
Definition Unmarshal (s : string) : option RetirejsOutput :=
  match parse_json s with
  | Some j => dec_Output zero_Output j
  | None => None
  end.

End GoJSON.

(** ** Concrete inputs *)
Module Inputs.

(** A string literal with ['] standing for the double quote. *)
Fixpoint dq (s : string) : string :=
  match s with
  | EmptyString => EmptyString
  | String c r => String (if Ascii.eqb c "'" then ascii_of_nat 34 else c) (dq r)
  end.

(** End-to-end scenario B of the specification. *)
Definition scenario_B : string :=
  dq "{'data':[{'file':'a.js','results':[{'version':'1.0','component':'lib','detection':'x','vulnerabilities':[{'severity':'high','below':'1.1','identifiers':{'issue':'I1','summary':'S','CVE':['CVE-1']}}]}]}]}".

(** End-to-end scenario C. *)
Definition scenario_C : string := dq "{'data':[]}".

(** End-to-end scenario D. *)
Definition scenario_D : string := "ERROR_CLONING: timeout".

(** A well-formed output with no issues whose [errors] blob carries the
    clone-failure marker. *)
Definition empty_with_marker : string := dq "{'data':[],'errors':'ERROR_CLONING'}".

(** A finding whose severities are spelled otherwise than the evaluator
    compares them. *)
Definition odd_severities : string :=
  dq "{'data':[{'file':'b.js','results':[{'version':'2.0','component':'lib','detection':'x','vulnerabilities':[{'severity':'High'},{'severity':'MEDIUM'},{'severity':'critical'}]}]}]}".

(** A gateway that accepts every update. *)
Definition db_ok : string -> list (string * string) -> option string := fun _ _ => None.

(** A container for the RetireJS image whose command is [cmd], before
    [Run], and the controller's state at time 0 with an empty trace. *)
Definition img0 : Controller.Image :=
  Controller.mkImage "docker.io/huskyci/retirejs:latest" "huskyci/retirejs" "latest".
Definition cont0 (cmd : string) : Controller.Container :=
  Controller.mkContainer false "" "" cmd "" img0 0%N 0%N.
Definition st0 (cmd : string) : Controller.St := Controller.mkSt (cont0 cmd) 0%N [].

Definition scan_cmd : string := "scan.sh %GIT_REPO% %GIT_BRANCH%".

(** Daemon answers. *)
Definition env_unset : env := fun _ => None.
Definition list_present : Controller.Time -> string -> nat * option string := fun _ _ => (1, None).
Definition pull_ok : Controller.Time -> string -> option string := fun _ _ => None.
Definition create_ok : Controller.Time -> Controller.Config -> string * option string :=
  fun _ _ => ("c1", None).
Definition start_ok : Controller.Time -> string -> option string := fun _ _ => None.
Definition wait_ok : Controller.Time -> string -> Controller.WaitResult :=
  fun _ _ => Controller.mkWaitResult 0 None 5000%N.
Definition logs_fail : Controller.Time -> string -> bool -> bool -> string * option string :=
  fun _ _ _ _ => ("", Some "read failed").
Definition remove_ok : Controller.Time -> string -> option string := fun _ _ => None.
Definition sel_timeout : nat -> bool := fun _ => false.

End Inputs.

(** * Properties *)

(** ** Go strings *)
Module StringFacts.

Lemma HasPrefix_refl : forall s, HasPrefix s s = true.
Proof.
  induction s as [|c s IH]; simpl; [reflexivity|].
  rewrite Ascii.eqb_refl, IH; reflexivity.
Qed.

Lemma Contains_app_r : forall p s, Contains (p ++ s) s = true.
Proof.
  induction p as [|c p IH]; intros s; simpl.
  - destruct s; simpl; [reflexivity|]. rewrite Ascii.eqb_refl, HasPrefix_refl. reflexivity.
  - rewrite IH, orb_true_r. reflexivity.
Qed.

Lemma Contains_cons : forall c s sub,
  Contains (String c s) sub = HasPrefix (String c s) sub || Contains s sub.
Proof. reflexivity. Qed.

(** A string with no occurrence of [old] is copied unchanged. *)
Lemma replace_from_absent : forall old new s,
  Contains s old = false -> replace_from old new O s = s.
Proof.
  intros old new s; induction s as [|c s IH]; intros H; [reflexivity|].
  rewrite Contains_cons in H. apply orb_false_iff in H as [H1 H2].
  cbn [replace_from]. rewrite H1, IH by exact H2. reflexivity.
Qed.

Lemma ReplaceAll_absent : forall s old new,
  Contains s old = false -> ReplaceAll s old new = s.
Proof. intros; apply replace_from_absent; assumption. Qed.

Lemma ReplaceAll_empty : forall old new, ReplaceAll "" old new = "".
Proof. reflexivity. Qed.

End StringFacts.

(** ** The evaluator *)
Module EvaluatorFacts.

Import Retirejs StringFacts.

Lemma vulnerability_loop_existsb : forall vs c,
  vulnerability_loop vs c = if existsb is_failing vs then "failed" else c.
Proof.
  induction vs as [|v vs IH]; intros c; simpl; [reflexivity|].
  unfold is_failing at 1. destruct (_ || _); [reflexivity|]. apply IH.
Qed.

Lemma result_loop_existsb : forall rs c,
  result_loop rs c =
  if existsb is_failing (flat_map RetirejsVulnerabilities rs) then "failed" else c.
Proof.
  induction rs as [|r rs IH]; intros c; simpl; [reflexivity|].
  rewrite IH, vulnerability_loop_existsb, existsb_app.
  destruct (existsb is_failing (RetirejsVulnerabilities r));
    destruct (existsb is_failing (flat_map RetirejsVulnerabilities rs)); reflexivity.
Qed.

Lemma issue_loop_existsb : forall is c,
  issue_loop is c =
  if existsb is_failing
       (flat_map (fun i => flat_map RetirejsVulnerabilities (RetirejsResults i)) is)
  then "failed" else c.
Proof.
  induction is as [|i is IH]; intros c; simpl; [reflexivity|].
  rewrite IH, result_loop_existsb, existsb_app.
  destruct (existsb is_failing (flat_map RetirejsVulnerabilities (RetirejsResults i)));
    destruct (existsb is_failing _); reflexivity.
Qed.

Lemma is_failing_iff : forall v,
  is_failing v = true <-> Severity v = "medium" \/ Severity v = "high".
Proof.
  intros v; unfold is_failing; rewrite orb_true_iff, !String.eqb_eq; tauto.
Qed.

Lemma persisted_update : forall db CID set key,
  persisted key (update db CID set) =
  match find (fun kv => String.eqb (fst kv) key) set with
  | Some kv => Some (snd kv) | None => None end.
Proof. intros; unfold update; destruct (db CID set); reflexivity. Qed.

Lemma no_unmarshal_in_update : forall db CID set x,
  ~ In (AUnmarshal x) (update db CID set).
Proof.
  intros db CID set x H; unfold update in H; destruct (db CID set);
    simpl in H; intuition discriminate.
Qed.

(** The evaluator parses exactly the outputs without the marker. *)
Lemma parsed_no_marker : forall U db CID raw,
  In (AUnmarshal raw) (RetirejsStartAnalysis U db CID raw) ->
  Contains raw "ERROR_CLONING" = false.
Proof.
  intros U db CID raw H; unfold RetirejsStartAnalysis in H.
  destruct (Contains raw "ERROR_CLONING"); [|reflexivity].
  exfalso; eapply no_unmarshal_in_update; exact H.
Qed.

Lemma eval_parsed : forall U db CID raw o,
  Contains raw "ERROR_CLONING" = false -> U raw = Some o ->
  RetirejsStartAnalysis U db CID raw =
  AUnmarshal raw ::
    (if Nat.eqb (List.length (RetirejsIssues o)) 0
     then update db CID [(key_cOutput, "No issues found.")]
     else update db CID [(key_cResult, issue_loop (RetirejsIssues o) "passed")]).
Proof.
  intros U db CID raw o Hm Hu; unfold RetirejsStartAnalysis; rewrite Hm, Hu; reflexivity.
Qed.

Lemma verdict_of_parsed : forall U db CID raw o,
  Contains raw "ERROR_CLONING" = false -> U raw = Some o -> RetirejsIssues o <> [] ->
  persisted key_cResult (RetirejsStartAnalysis U db CID raw) =
  Some (if existsb is_failing (vulnerabilities o) then "failed" else "passed").
Proof.
  intros U db CID raw o Hm Hu Hne.
  rewrite (eval_parsed U db CID raw o Hm Hu), issue_loop_existsb.
  fold (vulnerabilities o).
  destruct (Nat.eqb (List.length (RetirejsIssues o)) 0) eqn:El.
  - apply Nat.eqb_eq, length_zero_iff_nil in El; contradiction.
  - unfold update; destruct (db CID _); reflexivity.
Qed.

(** C1: for an output the evaluator parses into at least one issue, the
    persisted verdict is ["failed"] exactly when some vulnerability has
    severity ["medium"] or ["high"], and ["passed"] when every
    vulnerability is ["low"] or there is none. *)
Theorem verdict_failed_iff_medium_or_high :
  forall U db CID raw o,
  In (AUnmarshal raw) (RetirejsStartAnalysis U db CID raw) ->
  U raw = Some o -> RetirejsIssues o <> [] ->
  (persisted key_cResult (RetirejsStartAnalysis U db CID raw) = Some "failed" <->
   Exists (fun v => Severity v = "medium" \/ Severity v = "high") (vulnerabilities o)) /\
  (Forall (fun v => Severity v = "low") (vulnerabilities o) ->
   persisted key_cResult (RetirejsStartAnalysis U db CID raw) = Some "passed").
Proof.
  intros U db CID raw o Hin Hu Hne.
  rewrite (verdict_of_parsed U db CID raw o (parsed_no_marker U db CID raw Hin) Hu Hne).
  split.
  - rewrite Exists_exists. split.
    + intros Hf. destruct (existsb is_failing (vulnerabilities o)) eqn:E; [|discriminate].
      apply existsb_exists in E as [v [Hv Hfv]]. exists v. split; [exact Hv|].
      apply is_failing_iff; exact Hfv.
    + intros [v [Hv Hsev]].
      replace (existsb is_failing (vulnerabilities o)) with true; [reflexivity|].
      symmetry; apply existsb_exists. exists v; split; [exact Hv|].
      apply is_failing_iff; exact Hsev.
  - intros Hlow.
    replace (existsb is_failing (vulnerabilities o)) with false; [reflexivity|].
    symmetry; apply Bool.not_true_iff_false; intros E.
    apply existsb_exists in E as [v [Hv Hfv]].
    rewrite Forall_forall in Hlow. specialize (Hlow v Hv).
    apply is_failing_iff in Hfv. rewrite Hlow in Hfv. destruct Hfv; discriminate.
Qed.

(** Scenario B of the specification through [verdict_failed_iff_medium_or_high]. *)
Lemma verdict_failed_iff_medium_or_high_witness :
  let o := match GoJSON.Unmarshal Inputs.scenario_B with Some o => o | None => GoJSON.zero_Output end in
  In (AUnmarshal Inputs.scenario_B)
     (RetirejsStartAnalysis GoJSON.Unmarshal Inputs.db_ok "c1" Inputs.scenario_B) /\
  GoJSON.Unmarshal Inputs.scenario_B = Some o /\ RetirejsIssues o <> [] /\
  ((persisted key_cResult
      (RetirejsStartAnalysis GoJSON.Unmarshal Inputs.db_ok "c1" Inputs.scenario_B) = Some "failed" <->
    Exists (fun v => Severity v = "medium" \/ Severity v = "high") (vulnerabilities o)) /\
   (Forall (fun v => Severity v = "low") (vulnerabilities o) ->
    persisted key_cResult
      (RetirejsStartAnalysis GoJSON.Unmarshal Inputs.db_ok "c1" Inputs.scenario_B) = Some "passed")).
Proof.
  intros o.
  assert (H1 : In (AUnmarshal Inputs.scenario_B)
     (RetirejsStartAnalysis GoJSON.Unmarshal Inputs.db_ok "c1" Inputs.scenario_B))
    by (vm_compute; left; reflexivity).
  assert (H2 : GoJSON.Unmarshal Inputs.scenario_B = Some o) by (vm_compute; reflexivity).
  assert (H3 : RetirejsIssues o <> []) by (vm_compute; discriminate).
  split; [exact H1|]. split; [exact H2|]. split; [exact H3|].
  exact (verdict_failed_iff_medium_or_high GoJSON.Unmarshal Inputs.db_ok "c1"
           Inputs.scenario_B o H1 H2 H3).
Defined.

(** C10: the comparison is exact and case-sensitive: when no vulnerability
    of a parsed output has severity exactly ["high"] or ["medium"] (for
    example ["High"], ["MEDIUM"] or ["critical"]), the persisted verdict is
    not ["failed"]. *)
Theorem verdict_exact_case_sensitive_match :
  forall U db CID raw o,
  In (AUnmarshal raw) (RetirejsStartAnalysis U db CID raw) ->
  U raw = Some o ->
  Forall (fun v => Severity v <> "high" /\ Severity v <> "medium") (vulnerabilities o) ->
  persisted key_cResult (RetirejsStartAnalysis U db CID raw) <> Some "failed".
Proof.
  intros U db CID raw o Hin Hu Hall.
  pose proof (parsed_no_marker U db CID raw Hin) as Hm.
  destruct (RetirejsIssues o) eqn:Ei.
  - rewrite (eval_parsed U db CID raw o Hm Hu), Ei.
    unfold update; destruct (db CID _); discriminate.
  - assert (Hne : RetirejsIssues o <> []) by (rewrite Ei; discriminate).
    rewrite (verdict_of_parsed U db CID raw o Hm Hu Hne).
    replace (existsb is_failing (vulnerabilities o)) with false; [discriminate|].
    symmetry; apply Bool.not_true_iff_false; intros E.
    apply existsb_exists in E as [v [Hv Hfv]].
    rewrite Forall_forall in Hall. destruct (Hall v Hv) as [Hh Hmed].
    apply is_failing_iff in Hfv. tauto.
Qed.

(** An output with severities ["High"], ["MEDIUM"] and ["critical"] through
    [verdict_exact_case_sensitive_match]. *)
Lemma verdict_exact_case_sensitive_match_witness :
  let o := match GoJSON.Unmarshal Inputs.odd_severities with Some o => o | None => GoJSON.zero_Output end in
  In (AUnmarshal Inputs.odd_severities)
     (RetirejsStartAnalysis GoJSON.Unmarshal Inputs.db_ok "c1" Inputs.odd_severities) /\
  GoJSON.Unmarshal Inputs.odd_severities = Some o /\
  Forall (fun v => Severity v <> "high" /\ Severity v <> "medium") (vulnerabilities o) /\
  persisted key_cResult
    (RetirejsStartAnalysis GoJSON.Unmarshal Inputs.db_ok "c1" Inputs.odd_severities) <> Some "failed".
Proof.
  intros o.
  assert (H1 : In (AUnmarshal Inputs.odd_severities)
     (RetirejsStartAnalysis GoJSON.Unmarshal Inputs.db_ok "c1" Inputs.odd_severities))
    by (vm_compute; left; reflexivity).
  assert (H2 : GoJSON.Unmarshal Inputs.odd_severities = Some o) by (vm_compute; reflexivity).
  assert (H3 : Forall (fun v => Severity v <> "high" /\ Severity v <> "medium") (vulnerabilities o))
    by (vm_compute; repeat constructor; discriminate).
  split; [exact H1|]. split; [exact H2|]. split; [exact H3|].
  exact (verdict_exact_case_sensitive_match GoJSON.Unmarshal Inputs.db_ok "c1"
           Inputs.odd_severities o H1 H2 H3).
Defined.

(** C3: an output containing ["ERROR_CLONING"] is persisted with status
    ["failed"] and the error message ["Container error: "] followed by the
    output, and the evaluator never calls the parser: no parse event, and
    the same events whatever the parser. *)
Theorem clone_marker_fails_without_parsing :
  forall U db CID raw,
  Contains raw "ERROR_CLONING" = true ->
  let evs := RetirejsStartAnalysis U db CID raw in
  evs = update db CID [(key_cOutput, "Container error: " ++ raw); (key_cResult, "failed")] /\
  persisted key_cResult evs = Some "failed" /\
  (exists msg, persisted key_cOutput evs = Some msg /\ Contains msg raw = true) /\
  (forall x, ~ In (AUnmarshal x) evs) /\
  (forall U', RetirejsStartAnalysis U' db CID raw = evs).
Proof.
  intros U db CID raw Hm evs.
  assert (He : forall U', RetirejsStartAnalysis U' db CID raw =
    update db CID [(key_cOutput, "Container error: " ++ raw); (key_cResult, "failed")])
    by (intros U'; unfold RetirejsStartAnalysis; rewrite Hm; reflexivity).
  unfold evs; rewrite He.
  split; [reflexivity|]. split.
  { rewrite persisted_update; reflexivity. }
  split.
  { exists ("Container error: " ++ raw). rewrite persisted_update.
    split; [reflexivity|]. apply Contains_app_r. }
  split.
  { intros x; apply no_unmarshal_in_update. }
  intros U'; apply He.
Qed.

(** Scenario D of the specification through [clone_marker_fails_without_parsing]. *)
Lemma clone_marker_fails_without_parsing_witness :
  Contains Inputs.scenario_D "ERROR_CLONING" = true /\
  let evs := RetirejsStartAnalysis GoJSON.Unmarshal Inputs.db_ok "c1" Inputs.scenario_D in
  evs = update Inputs.db_ok "c1"
          [(key_cOutput, "Container error: " ++ Inputs.scenario_D); (key_cResult, "failed")] /\
  persisted key_cResult evs = Some "failed" /\
  (exists msg, persisted key_cOutput evs = Some msg /\ Contains msg Inputs.scenario_D = true) /\
  (forall x, ~ In (AUnmarshal x) evs) /\
  (forall U', RetirejsStartAnalysis U' Inputs.db_ok "c1" Inputs.scenario_D = evs).
Proof.
  assert (H : Contains Inputs.scenario_D "ERROR_CLONING" = true) by (vm_compute; reflexivity).
  split; [exact H|].
  exact (clone_marker_fails_without_parsing GoJSON.Unmarshal Inputs.db_ok "c1" Inputs.scenario_D H).
Defined.

(** C4, as stated, fails: [{"data":[],"errors":"ERROR_CLONING"}] is
    well-formed and parses into an output with no issues, yet the evaluator
    takes the clone-failure path: it persists ["Container error: ..."] and
    the verdict ["failed"], not ["No issues found."]. *)
Lemma empty_issues_with_marker_takes_clone_path :
  GoJSON.Unmarshal Inputs.empty_with_marker =
    Some (mkOutput [] "" (Inputs.dq "'ERROR_CLONING'")) /\
  RetirejsStartAnalysis GoJSON.Unmarshal Inputs.db_ok "c1" Inputs.empty_with_marker =
    [AUpdate "c1" [(key_cOutput, "Container error: " ++ Inputs.empty_with_marker);
                   (key_cResult, "failed")]].
Proof. split; vm_compute; reflexivity. Qed.

(** C4 (amended): an output without the clone-failure marker that parses
    into an output with no issues is persisted as the single field
    [cOutput = "No issues found."]: no verdict field is set. *)
Theorem no_issues_output :
  forall U db CID raw o,
  Contains raw "ERROR_CLONING" = false -> U raw = Some o -> RetirejsIssues o = [] ->
  RetirejsStartAnalysis U db CID raw =
    AUnmarshal raw :: update db CID [(key_cOutput, "No issues found.")] /\
  persisted key_cOutput (RetirejsStartAnalysis U db CID raw) = Some "No issues found." /\
  persisted key_cResult (RetirejsStartAnalysis U db CID raw) = None.
Proof.
  intros U db CID raw o Hm Hu Hi.
  rewrite (eval_parsed U db CID raw o Hm Hu), Hi.
  split; [reflexivity|].
  unfold update; destruct (db CID _); split; reflexivity.
Qed.

(** Scenario C of the specification through [no_issues_output]. *)
Lemma no_issues_output_witness :
  Contains Inputs.scenario_C "ERROR_CLONING" = false /\
  GoJSON.Unmarshal Inputs.scenario_C = Some GoJSON.zero_Output /\
  RetirejsIssues GoJSON.zero_Output = [] /\
  (RetirejsStartAnalysis GoJSON.Unmarshal Inputs.db_ok "c1" Inputs.scenario_C =
     AUnmarshal Inputs.scenario_C :: update Inputs.db_ok "c1" [(key_cOutput, "No issues found.")] /\
   persisted key_cOutput
     (RetirejsStartAnalysis GoJSON.Unmarshal Inputs.db_ok "c1" Inputs.scenario_C) = Some "No issues found." /\
   persisted key_cResult
     (RetirejsStartAnalysis GoJSON.Unmarshal Inputs.db_ok "c1" Inputs.scenario_C) = None).
Proof.
  assert (H1 : Contains Inputs.scenario_C "ERROR_CLONING" = false) by (vm_compute; reflexivity).
  assert (H2 : GoJSON.Unmarshal Inputs.scenario_C = Some GoJSON.zero_Output) by (vm_compute; reflexivity).
  assert (H3 : RetirejsIssues GoJSON.zero_Output = []) by reflexivity.
  split; [exact H1|]. split; [exact H2|]. split; [exact H3|].
  exact (no_issues_output GoJSON.Unmarshal Inputs.db_ok "c1" Inputs.scenario_C
           GoJSON.zero_Output H1 H2 H3).
Defined.

End EvaluatorFacts.

(** ** The command template resolver *)
Module ResolverFacts.

Import StringFacts.

(** C5, as stated, fails: the two tokens are replaced one after the other,
    so a [%GIT_BRANCH%] that the repository URL brings in is replaced too.
    The template ["%GIT_REPO%"] holds no branch token, and replacing its one
    [%GIT_REPO%] by the URL ["r%GIT_BRANCH%"] would give that URL back;
    [HandleCmd] gives ["rb"]. *)
Lemma url_with_branch_token_is_rewritten :
  Contains "%GIT_REPO%" "%GIT_BRANCH%" = false /\
  HandleCmd "r%GIT_BRANCH%" "b" "%GIT_REPO%" = "rb" /\
  String.eqb "rb" "r%GIT_BRANCH%" = false.
Proof. repeat split; reflexivity. Qed.

(** C5 (amended): [HandleCmd] returns [""] when the URL, the branch or the
    template is empty; otherwise it replaces every [%GIT_REPO%] of the
    template by the URL and then every [%GIT_BRANCH%] of that string by the
    branch; a template with neither token comes back unchanged; and
    scenario A resolves to ["scan.sh git@x/y main"]. *)
Theorem HandleCmd_resolution :
  forall url br t,
  ((url = "" \/ br = "" \/ t = "") -> HandleCmd url br t = "") /\
  (url <> "" -> br <> "" -> t <> "" ->
   HandleCmd url br t = ReplaceAll (ReplaceAll t "%GIT_REPO%" url) "%GIT_BRANCH%" br) /\
  (url <> "" -> br <> "" ->
   Contains t "%GIT_REPO%" = false -> Contains t "%GIT_BRANCH%" = false ->
   HandleCmd url br t = t) /\
  HandleCmd "git@x/y" "main" "scan.sh %GIT_REPO% %GIT_BRANCH%" = "scan.sh git@x/y main".
Proof.
  intros url br t. unfold HandleCmd.
  split; [|split; [|split]].
  - intros [-> | [-> | ->]]; simpl; [reflexivity| |];
      destruct (String.eqb url ""); simpl; [reflexivity| |reflexivity|];
      try reflexivity; rewrite andb_false_r; reflexivity.
  - intros Hu Hb Ht.
    apply String.eqb_neq in Hu, Hb, Ht. rewrite Hu, Hb, Ht. reflexivity.
  - intros Hu Hb Hr Hbr.
    destruct (String.eqb t "") eqn:Ht.
    + apply String.eqb_eq in Ht; subst t.
      rewrite andb_false_r; reflexivity.
    + apply String.eqb_neq in Hu, Hb. rewrite Hu, Hb. simpl.
      rewrite (ReplaceAll_absent t _ _ Hr), (ReplaceAll_absent t _ _ Hbr). reflexivity.
  - reflexivity.
Qed.

(** A template without tokens through [HandleCmd_resolution]. *)
Lemma HandleCmd_resolution_witness :
  "u" <> "" /\ "b" <> "" /\
  Contains "make scan" "%GIT_REPO%" = false /\ Contains "make scan" "%GIT_BRANCH%" = false /\
  HandleCmd "u" "b" "make scan" = "make scan".
Proof.
  assert (H1 : "u" <> "") by discriminate.
  assert (H2 : "b" <> "") by discriminate.
  assert (H3 : Contains "make scan" "%GIT_REPO%" = false) by reflexivity.
  assert (H4 : Contains "make scan" "%GIT_BRANCH%" = false) by reflexivity.
  split; [exact H1|]. split; [exact H2|]. split; [exact H3|]. split; [exact H4|].
  destruct (HandleCmd_resolution "u" "b" "make scan") as [_ [_ [H _]]].
  exact (H H1 H2 H3 H4).
Defined.

(** C6: [HandlePrivateSSHKey] replaces the bare word [GIT_PRIVATE_SSH_KEY],
    not the token [%GIT_PRIVATE_SSH_KEY%] its doc comment names: the two
    [%] of the token stay around the secret, and with the secret unset the
    token becomes ["%%"]. *)
Theorem HandlePrivateSSHKey_keeps_delimiters :
  (forall e,
     HandlePrivateSSHKey e "%GIT_PRIVATE_SSH_KEY%" =
     "%" ++ Getenv e "HUSKYCI_API_GIT_PRIVATE_SSH_KEY" ++ "%") /\
  HandlePrivateSSHKey (fun _ => None) "%GIT_PRIVATE_SSH_KEY%" = "%%".
Proof.
  split; [|reflexivity].
  intros e. unfold HandlePrivateSSHKey, ReplaceAll. cbn. reflexivity.
Qed.

End ResolverFacts.

(** ** The controller *)
Module ControllerFacts.

Import Controller.

Lemma removals_app : forall l1 l2, removals (l1 ++ l2) = removals l1 + removals l2.
Proof. intros; unfold removals; rewrite filter_app, length_app; reflexivity. Qed.

Lemma keeps_ret : forall A (a : A), keeps_removals (ret a).
Proof. intros A a s; reflexivity. Qed.

Lemma keeps_emit : forall ev, is_removal (0%N, ev) = false -> keeps_removals (emit ev).
Proof.
  intros ev H s; simpl; rewrite removals_app.
  unfold removals at 2; simpl; unfold is_removal in *; simpl in *; rewrite H; simpl; lia.
Qed.

Lemma keeps_now : keeps_removals now.
Proof. intros s; reflexivity. Qed.

Lemma keeps_set_clock : forall t, keeps_removals (set_clock t).
Proof. intros t s; reflexivity. Qed.

Lemma keeps_get_c : keeps_removals get_c.
Proof. intros s; reflexivity. Qed.

Lemma keeps_put_c : forall c, keeps_removals (put_c c).
Proof. intros c s; reflexivity. Qed.

Lemma keeps_bind : forall A B (m : M A) (k : A -> M B),
  keeps_removals m -> (forall a, keeps_removals (k a)) -> keeps_removals (bind m k).
Proof.
  intros A B m k Hm Hk s; unfold bind.
  specialize (Hm s). destruct (m s) as [a s'] eqn:E. simpl in Hm.
  rewrite Hk; exact Hm.
Qed.

Lemma keeps_modify_c : forall f, keeps_removals (modify_c f).
Proof.
  intros f; unfold modify_c; apply keeps_bind; [apply keeps_get_c|intros; apply keeps_put_c].
Qed.

Lemma keeps_log_error : forall code, keeps_removals (log_error code).
Proof. intros; apply keeps_emit; reflexivity. Qed.

Lemma keeps_log_info : forall code, keeps_removals (log_info code).
Proof. intros; apply keeps_emit; reflexivity. Qed.

Create HintDb keeps.
#[export] Hint Resolve keeps_ret keeps_now keeps_set_clock keeps_get_c keeps_put_c
  keeps_modify_c keeps_log_error keeps_log_info : keeps.

Ltac keeps_tac :=
  repeat match goal with
  | |- keeps_removals (bind _ _) => apply keeps_bind; [|intros ?]
  | |- keeps_removals (emit _) => apply keeps_emit; reflexivity
  | |- keeps_removals (match ?x with _ => _ end) => destruct x
  | |- keeps_removals _ => solve [eauto with keeps]
  end.



Section Accounting.

Variable e : env.
Variable d_new_client : option string.
Variable d_image_list : Time -> string -> nat * option string.
Variable d_image_pull : Time -> string -> option string.
Variable d_create : Time -> Config -> string * option string.
Variable d_start : Time -> string -> option string.
Variable d_wait : Time -> string -> WaitResult.
Variable d_logs : Time -> string -> bool -> bool -> string * option string.
Variable d_remove : Time -> string -> option string.
Variable sel : nat -> bool.

Lemma keeps_NewDockerClient : keeps_removals (NewDockerClient d_new_client).
Proof. unfold NewDockerClient; keeps_tac. Qed.

Lemma keeps_ImageIsLoaded : keeps_removals (ImageIsLoaded d_image_list).
Proof. unfold ImageIsLoaded; keeps_tac. Qed.

Lemma keeps_PullImage : keeps_removals (PullImage d_image_pull).
Proof. unfold PullImage; keeps_tac. Qed.

Lemma keeps_Create : forall url br, keeps_removals (Create e d_create url br).
Proof. intros; unfold Create; cbv zeta; keeps_tac. Qed.

Lemma keeps_Start : keeps_removals (Start d_start).
Proof. unfold Start; keeps_tac. Qed.

Lemma keeps_Wait : keeps_removals (Wait d_wait).
Proof. unfold Wait; cbv zeta; keeps_tac. Qed.

Lemma keeps_ReadOutput : forall o r, keeps_removals (ReadOutput d_logs o r).
Proof. intros; unfold ReadOutput; keeps_tac. Qed.

#[local] Hint Resolve keeps_NewDockerClient keeps_ImageIsLoaded keeps_PullImage
  keeps_Create keeps_Start keeps_Wait keeps_ReadOutput : keeps.

Lemma keeps_pull_loop : forall fuel t0 k,
  keeps_removals (pull_loop d_image_list d_image_pull sel fuel t0 k).
Proof.
  induction fuel as [|f IH]; intros t0 k; simpl; [apply keeps_ret|].
  keeps_tac.
Qed.

Lemma keeps_PullImageWorker : keeps_removals (PullImageWorker d_image_list d_image_pull sel).
Proof. unfold PullImageWorker; apply keeps_bind; [apply keeps_now|intros; apply keeps_pull_loop]. Qed.

#[local] Hint Resolve keeps_PullImageWorker : keeps.




End Accounting.


(** C8: when the wait succeeds and reading the output fails, [Run]
    records [FinishedAt] but returns before setting [Status] to
    ["finished"]: the container is left ["running"], unlike the start and
    wait failure paths, which set ["finished"] before returning. *)
Lemma read_failure_leaves_status_running :
  let r := Run Inputs.env_unset None Inputs.list_present Inputs.pull_ok Inputs.create_ok
             Inputs.start_ok Inputs.wait_ok Inputs.logs_fail Inputs.remove_ok
             Inputs.sel_timeout "git@x/y" "main" (Inputs.st0 Inputs.scan_cmd) in
  fst r = Some "read failed" /\
  FinishedAt (cont (snd r)) = 5000%N /\
  Status (cont (snd r)) = "running".
Proof. vm_compute. repeat split. Qed.




Section PullTiming.

Variable d_image_list : Time -> string -> nat * option string.
Variable d_image_pull : Time -> string -> option string.
Variable sel : nat -> bool.

(** The image never shows up and every pull call succeeds. *)
Hypothesis never_listed : forall t r, d_image_list t r = (0, None).
Hypothesis pull_succeeds : forall t u, d_image_pull t u = None.





End PullTiming.




End ControllerFacts.


(** * Further properties of the code *)

(** ** The Docker client environment *)
Module DockerEnvFacts.

Import StringFacts DockerEnv.

Lemma has_byte_app : forall b s1 s2,
  has_byte b (s1 ++ s2) = has_byte b s1 || has_byte b s2.
Proof.
  intros b s1 s2; induction s1 as [|c s1 IH]; simpl; [reflexivity|].
  rewrite IH, orb_assoc; reflexivity.
Qed.

Lemma Setenv_valid : forall e k v,
  String.eqb k "" = false -> has_byte "=" k = false -> has_byte zero k = false ->
  has_byte zero v = false ->
  Setenv e k v = (None, fun k' => if String.eqb k' k then Some v else e k').
Proof. intros e k v H1 H2 H3 H4; unfold Setenv; rewrite H1, H2, H3, H4; reflexivity. Qed.

Lemma Getenv_no_nul : forall e k,
  (forall k' v, e k' = Some v -> has_byte zero v = false) ->
  has_byte zero (Getenv e k) = false.
Proof.
  intros e k He; unfold Getenv; destruct (e k) eqn:E; [exact (He _ _ E)|reflexivity].
Qed.

Lemma no_nul_default : forall d x,
  has_byte zero d = false -> has_byte zero x = false ->
  has_byte zero (if String.eqb x "" then d else x) = false.
Proof. intros d x Hd Hx; destruct (String.eqb x ""); assumption. Qed.

(** With no NUL byte in the environment, the three variables are set. *)
Lemma setDockerClientEnvs_result : forall e,
  (forall k v, e k = Some v -> has_byte zero v = false) ->
  let port := Getenv e "HUSKYCI_DOCKERAPI_PORT" in
  let tls := Getenv e "HUSKYCI_DOCKERAPI_TLS_VERIFY" in
  let host := "https://" ++ Getenv e "HUSKYCI_DOCKERAPI_ADDR" ++ ":" ++
              (if String.eqb port "" then "2376" else port) in
  let cert := Getenv e "HUSKYCI_DOCKERAPI_CERT_PATH" in
  let tlsv := if String.eqb tls "" then "1" else tls in
  setDockerClientEnvs e =
    (None, fun k => if String.eqb k "DOCKER_TLS_VERIFY" then Some tlsv else
                    if String.eqb k "DOCKER_CERT_PATH" then Some cert else
                    if String.eqb k "DOCKER_HOST" then Some host else e k, []).
Proof.
  intros e He. cbv zeta.
  assert (Hg : forall k, has_byte zero (Getenv e k) = false)
    by (intros k; apply Getenv_no_nul, He).
  unfold setDockerClientEnvs. cbv zeta.
  rewrite Setenv_valid by first [reflexivity | rewrite !has_byte_app, !Hg; simpl;
                           apply no_nul_default; [reflexivity|apply Hg]].
  rewrite Setenv_valid by first [reflexivity | apply Hg].
  rewrite Setenv_valid by first [reflexivity | apply no_nul_default; [reflexivity|apply Hg]].
  reflexivity.
Qed.

(** [setDockerClientEnvs]: when no variable of the environment holds a NUL
    byte, it succeeds without logging, sets [DOCKER_HOST] to
    ["https://" ++ HUSKYCI_DOCKERAPI_ADDR ++ ":" ++ port] (port
    [HUSKYCI_DOCKERAPI_PORT], ["2376"] when empty), [DOCKER_CERT_PATH] to
    [HUSKYCI_DOCKERAPI_CERT_PATH], [DOCKER_TLS_VERIFY] to
    [HUSKYCI_DOCKERAPI_TLS_VERIFY] (["1"] when empty), and leaves every
    other variable as it was. *)
Theorem setDockerClientEnvs_sets : forall e,
  (forall k v, e k = Some v -> has_byte zero v = false) ->
  let r := setDockerClientEnvs e in
  let port := Getenv e "HUSKYCI_DOCKERAPI_PORT" in
  let tls := Getenv e "HUSKYCI_DOCKERAPI_TLS_VERIFY" in
  fst (fst r) = None /\ snd r = [] /\
  snd (fst r) "DOCKER_HOST" =
    Some ("https://" ++ Getenv e "HUSKYCI_DOCKERAPI_ADDR" ++ ":" ++
          (if String.eqb port "" then "2376" else port)) /\
  snd (fst r) "DOCKER_CERT_PATH" = Some (Getenv e "HUSKYCI_DOCKERAPI_CERT_PATH") /\
  snd (fst r) "DOCKER_TLS_VERIFY" = Some (if String.eqb tls "" then "1" else tls) /\
  (forall k, k <> "DOCKER_HOST" -> k <> "DOCKER_CERT_PATH" -> k <> "DOCKER_TLS_VERIFY" ->
     snd (fst r) k = e k).
Proof.
  intros e He r port tls. subst r.
  rewrite (setDockerClientEnvs_result e He). cbv zeta. simpl.
  split; [reflexivity|]. split; [reflexivity|]. split; [reflexivity|].
  split; [reflexivity|]. split; [reflexivity|].
  intros k H1 H2 H3. apply String.eqb_neq in H1, H2, H3. rewrite H1, H2, H3. reflexivity.
Qed.

(** The empty environment through [setDockerClientEnvs_sets]:
    [DOCKER_HOST] becomes ["https://:2376"]. *)
Lemma setDockerClientEnvs_sets_witness :
  (forall k v, Inputs.env_unset k = Some v -> has_byte zero v = false) /\
  snd (fst (setDockerClientEnvs Inputs.env_unset)) "DOCKER_HOST" = Some "https://:2376".
Proof.
  assert (H : forall k v, Inputs.env_unset k = Some v -> has_byte zero v = false)
    by (intros k v Hk; discriminate Hk).
  split; [exact H|].
  exact (proj1 (proj2 (proj2 (setDockerClientEnvs_sets Inputs.env_unset H)))).
Defined.

(** [HealthCheckDockerAPI]: when no variable of the environment holds a
    NUL byte, the health check builds the client from the environment set
    by [setDockerClientEnvs]; a client error is returned with the code
    3011 logged, otherwise the result is the [Ping]'s, with nothing
    logged. *)
Theorem HealthCheckDockerAPI_result : forall NewEnvClient Ping e,
  (forall k v, e k = Some v -> has_byte zero v = false) ->
  let e' := snd (fst (setDockerClientEnvs e)) in
  HealthCheckDockerAPI NewEnvClient Ping e =
    match NewEnvClient e' with
    | Some err => (Some err, [3011])
    | None => (Ping e', [])
    end.
Proof.
  intros NewEnvClient Ping e He e'. subst e'.
  unfold HealthCheckDockerAPI, NewDockerClient.
  rewrite (setDockerClientEnvs_result e He). cbv zeta. simpl.
  destruct (NewEnvClient _); reflexivity.
Qed.

(** A client that fails on the empty environment through
    [HealthCheckDockerAPI_result]. *)
Lemma HealthCheckDockerAPI_result_witness :
  (forall k v, Inputs.env_unset k = Some v -> has_byte zero v = false) /\
  HealthCheckDockerAPI (fun _ => Some "no daemon") (fun _ => None) Inputs.env_unset =
    (Some "no daemon", [3011]).
Proof.
  assert (H : forall k v, Inputs.env_unset k = Some v -> has_byte zero v = false)
    by (intros k v Hk; discriminate Hk).
  split; [exact H|].
  exact (HealthCheckDockerAPI_result (fun _ => Some "no daemon") (fun _ => None)
           Inputs.env_unset H).
Defined.



(** [HandlePrivateSSHKey]: a command without the text
    ["GIT_PRIVATE_SSH_KEY"] is returned unchanged, whatever the
    environment. *)
Theorem HandlePrivateSSHKey_no_placeholder : forall e raw,
  Contains raw "GIT_PRIVATE_SSH_KEY" = false -> HandlePrivateSSHKey e raw = raw.
Proof. intros e raw H; unfold HandlePrivateSSHKey; apply ReplaceAll_absent; exact H. Qed.

(** The resolved command of scenario A through
    [HandlePrivateSSHKey_no_placeholder]. *)
Lemma HandlePrivateSSHKey_no_placeholder_witness :
  Contains "scan.sh git@x/y main" "GIT_PRIVATE_SSH_KEY" = false /\
  HandlePrivateSSHKey (fun _ => Some "secret") "scan.sh git@x/y main" = "scan.sh git@x/y main".
Proof.
  assert (H : Contains "scan.sh git@x/y main" "GIT_PRIVATE_SSH_KEY" = false) by reflexivity.
  split; [exact H|].
  exact (HandlePrivateSSHKey_no_placeholder (fun _ => Some "secret") _ H).
Defined.

End DockerEnvFacts.


(** ** The evaluator *)
Module EvaluatorExtraFacts.

Import Retirejs StringFacts EvaluatorFacts.

Lemma persisted_update_keys : forall db CID set key,
  persisted key (update db CID set) <> None -> In key (map fst set).
Proof.
  intros db CID set key H. rewrite persisted_update in H.
  destruct (find _ set) as [kv|] eqn:Ef; [|congruence].
  apply find_some in Ef as [Hin Heq]. apply String.eqb_eq in Heq.
  apply in_map_iff. exists kv. auto.
Qed.

Lemma persisted_cons_other : forall x evs key,
  (forall c set, x <> AUpdate c set) -> persisted key (x :: evs) = persisted key evs.
Proof.
  intros x evs key H; destruct x; [exfalso; eapply H; reflexivity|reflexivity|reflexivity].
Qed.

(** [RetirejsStartAnalysis]: an output without the clone-failure marker
    that does not parse is only logged: the events are the parse attempt
    and two error lines, and nothing is written to the database. *)
Theorem parse_error_writes_nothing : forall U db CID raw,
  Contains raw "ERROR_CLONING" = false -> U raw = None ->
  RetirejsStartAnalysis U db CID raw =
    [AUnmarshal raw; ALog "ERROR" "Unmarshall error (inside retirejs.go):"; ALog "ERROR" raw] /\
  (forall c set, ~ In (AUpdate c set) (RetirejsStartAnalysis U db CID raw)).
Proof.
  intros U db CID raw Hm Hu. unfold RetirejsStartAnalysis; rewrite Hm, Hu.
  split; [reflexivity|]. intros c set H; simpl in H; intuition discriminate.
Qed.

(** The output ["not json"] through [parse_error_writes_nothing]. *)
Lemma parse_error_writes_nothing_witness :
  Contains "not json" "ERROR_CLONING" = false /\ GoJSON.Unmarshal "not json" = None /\
  RetirejsStartAnalysis GoJSON.Unmarshal Inputs.db_ok "c1" "not json" =
    [AUnmarshal "not json"; ALog "ERROR" "Unmarshall error (inside retirejs.go):";
     ALog "ERROR" "not json"].
Proof.
  assert (H1 : Contains "not json" "ERROR_CLONING" = false) by reflexivity.
  assert (H2 : GoJSON.Unmarshal "not json" = None) by (vm_compute; reflexivity).
  split; [exact H1|]. split; [exact H2|].
  exact (proj1 (parse_error_writes_nothing GoJSON.Unmarshal Inputs.db_ok "c1" "not json" H1 H2)).
Defined.

(** [RetirejsStartAnalysis] writes to the database at most once, as its
    last step: either its events are one update (preceded by nothing, or by
    the parse attempt) with its error logging, or no update at all. *)
Theorem single_update_last : forall U db CID raw,
  let evs := RetirejsStartAnalysis U db CID raw in
  (exists pre set, (pre = [] \/ pre = [AUnmarshal raw]) /\ evs = (pre ++ update db CID set)%list) \/
  (forall c set, ~ In (AUpdate c set) evs).
Proof.
  intros U db CID raw evs. subst evs. unfold RetirejsStartAnalysis.
  destruct (Contains raw "ERROR_CLONING").
  { left. eexists [], _. split; [left; reflexivity|reflexivity]. }
  destruct (U raw) as [o|].
  - left. destruct (Nat.eqb _ 0);
      eexists [AUnmarshal raw], _; (split; [right; reflexivity|reflexivity]).
  - right. intros c set H; simpl in H; intuition discriminate.
Qed.

(** [RetirejsStartAnalysis] persists no field other than [cOutput] and
    [cResult], and the persisted [cResult], if any, is ["passed"] or
    ["failed"]. *)
Theorem writes_only_output_and_verdict : forall U db CID raw,
  let evs := RetirejsStartAnalysis U db CID raw in
  (forall key, key <> key_cOutput -> key <> key_cResult -> persisted key evs = None) /\
  (persisted key_cResult evs = None \/ persisted key_cResult evs = Some "passed" \/
   persisted key_cResult evs = Some "failed").
Proof.
  intros U db CID raw evs. subst evs. unfold RetirejsStartAnalysis.
  destruct (Contains raw "ERROR_CLONING").
  { split.
    - intros key H1 H2. destruct (persisted key _) eqn:E; [|reflexivity].
      exfalso. assert (Hn : persisted key (update db CID
        [(key_cOutput, "Container error: " ++ raw); (key_cResult, "failed")]) <> None)
        by congruence.
      apply persisted_update_keys in Hn. simpl in Hn. intuition.
    - rewrite persisted_update. right; right; reflexivity. }
  rewrite !persisted_cons_other by discriminate.
  destruct (U raw) as [o|].
  2: { split; [reflexivity|left; reflexivity]. }
  destruct (Nat.eqb _ 0); cbv beta iota.
  - split.
    + intros key H1 H2. destruct (persisted key _) eqn:E; [|reflexivity].
      rewrite persisted_cons_other in E by discriminate.
      exfalso. assert (Hn : persisted key (update db CID [(key_cOutput, "No issues found.")])
        <> None) by (rewrite E; discriminate).
      apply persisted_update_keys in Hn. simpl in Hn. intuition.
    + left. rewrite persisted_update. reflexivity.
  - split.
    + intros key H1 H2. destruct (persisted key _) eqn:E; [|reflexivity].
      rewrite persisted_cons_other in E by discriminate.
      exfalso. assert (Hn : persisted key (update db CID
        [(key_cResult, issue_loop (RetirejsIssues o) "passed")]) <> None) by congruence.
      apply persisted_update_keys in Hn. simpl in Hn. intuition.
    + rewrite persisted_update, issue_loop_existsb. simpl.
      destruct (existsb _ _); right; [right|left]; reflexivity.
Qed.

(** [RetirejsStartAnalysis]: when a parsed output has issues, only the
    verdict is written; the [cOutput] field is left untouched. *)
Theorem verdict_path_keeps_output : forall U db CID raw o,
  Contains raw "ERROR_CLONING" = false -> U raw = Some o -> RetirejsIssues o <> [] ->
  persisted key_cOutput (RetirejsStartAnalysis U db CID raw) = None.
Proof.
  intros U db CID raw o Hm Hu Hne.
  rewrite (eval_parsed U db CID raw o Hm Hu).
  destruct (Nat.eqb (List.length (RetirejsIssues o)) 0) eqn:El.
  - apply Nat.eqb_eq, length_zero_iff_nil in El; contradiction.
  - rewrite persisted_cons_other by discriminate. rewrite persisted_update. reflexivity.
Qed.

(** Scenario B through [verdict_path_keeps_output]. *)
Lemma verdict_path_keeps_output_witness :
  let o := match GoJSON.Unmarshal Inputs.scenario_B with Some o => o | None => GoJSON.zero_Output end in
  Contains Inputs.scenario_B "ERROR_CLONING" = false /\
  GoJSON.Unmarshal Inputs.scenario_B = Some o /\ RetirejsIssues o <> [] /\
  persisted key_cOutput
    (RetirejsStartAnalysis GoJSON.Unmarshal Inputs.db_ok "c1" Inputs.scenario_B) = None.
Proof.
  intros o.
  assert (H1 : Contains Inputs.scenario_B "ERROR_CLONING" = false) by (vm_compute; reflexivity).
  assert (H2 : GoJSON.Unmarshal Inputs.scenario_B = Some o) by (vm_compute; reflexivity).
  assert (H3 : RetirejsIssues o <> []) by (vm_compute; discriminate).
  split; [exact H1|]. split; [exact H2|]. split; [exact H3|].
  exact (verdict_path_keeps_output GoJSON.Unmarshal Inputs.db_ok "c1" Inputs.scenario_B o
           H1 H2 H3).
Defined.

End EvaluatorExtraFacts.


(** ** The container controller *)
Module ControllerExtraFacts.

Import Controller.

Section Worker.

Variable d_image_list : Time -> string -> nat * option string.
Variable d_image_pull : Time -> string -> option string.
Variable sel : nat -> bool.




End Worker.






(** *** Agreement of programs up to log lines *)










Section ExitStatus.

Variable e : env.
Variable d_new_client : option string.
Variable d_image_list : Time -> string -> nat * option string.
Variable d_image_pull : Time -> string -> option string.
Variable d_create : Time -> Config -> string * option string.
Variable d_start : Time -> string -> option string.
Variable d_wait : Time -> string -> WaitResult.
Variable d_logs : Time -> string -> bool -> bool -> string * option string.
Variable d_remove : Time -> string -> option string.
Variable sel : nat -> bool.




End ExitStatus.

End ControllerExtraFacts.
